(** * Template service bootstrap: configuration, lifespan and health check

    A shallow embedding of [services/template-service/src/main.py]:
    the normalisation of [DATABASE_URL] done at import time, the
    [lifespan] context manager that acquires and releases the database
    engine and the Redis client, and the [/health] endpoint.

    Python code that calls into SQLAlchemy, Redis, the logger or the
    clock is written in a small state-and-exception monad.  Every call
    that leaves the module is recorded in a trace, and whether it
    returns or raises is read from a [World] record, so the theorems
    quantify over every behaviour of the collaborators. *)

From Stdlib Require Import String Ascii List Bool Arith.
Import ListNotations.
Open Scope string_scope.

(* ================================================================== *)
(** ** Python strings *)

Module PyStr.

(** [s.startswith(p)] *)
Definition startswith (s p : string) : bool := String.prefix p s.

(** [s[n:]] *)
Fixpoint drop (n : nat) (s : string) : string :=
  match n, s with
  | O, _ => s
  | S _, EmptyString => EmptyString
  | S n', String _ s' => drop n' s'
  end.

(** [s.replace(old, new, 1)]: the leftmost occurrence of [old] is
    replaced by [new]; a string without an occurrence is returned as
    it is. *)
Fixpoint replace1 (old new s : string) : string :=
  if String.prefix old s then new ++ drop (String.length old) s
  else match s with
       | EmptyString => EmptyString
       | String c s' => String c (replace1 old new s')
       end.

(** Truth value of a string: only the empty string is false. *)
Definition truthy (s : string) : bool :=
  match s with EmptyString => false | String _ _ => true end.

(** Number of (possibly overlapping) places where [p] occurs in [s]. *)
Fixpoint occurrences (p s : string) : nat :=
  (if String.prefix p s then 1 else 0) +
  match s with
  | EmptyString => 0
  | String _ s' => occurrences p s'
  end.

End PyStr.

(* ================================================================== *)
(** ** Configuration (main.py, lines 26-32) *)

Definition generic_scheme : string := "postgresql://".
Definition asyncpg_scheme : string := "postgresql+asyncpg://".

(** Lines 28-29.  [url] is what [os.getenv("DATABASE_URL")] returned:
    [None] when the variable is not set. *)
Definition normalize_database_url (url : option string) : option string :=
  match url with
  | None => None
  | Some s =>
      if PyStr.truthy s && PyStr.startswith s generic_scheme
      then Some (PyStr.replace1 generic_scheme asyncpg_scheme s)
      else Some s
  end.

Record Config := mkConfig {
  DATABASE_URL : option string;
  REDIS_URL : option string
}.

(** The two module-level assignments, over a process environment. *)
Definition load_config (getenv : string -> option string) : Config :=
  {| DATABASE_URL := normalize_database_url (getenv "DATABASE_URL");
     REDIS_URL := getenv "REDIS_URL" |}.

(* ================================================================== *)
(** ** Exceptions *)

(** The classes of exception the collaborators of this module raise.
    The last four derive from [BaseException] without deriving from
    [Exception]. *)
Inductive exn_class :=
| TypeError
| AttributeError
| ValueError
| RuntimeError
| OSError
| ArgumentError          (* sqlalchemy.exc *)
| OperationalError       (* sqlalchemy.exc *)
| RedisConnectionError   (* redis.exceptions.ConnectionError *)
| CancelledError         (* asyncio *)
| KeyboardInterrupt
| SystemExit
| GeneratorExit.

Record exn := mkExn {
  exn_cls : exn_class;
  exn_msg : string         (* [str(e)] *)
}.

(** [isinstance(e, Exception)] *)
Definition is_Exception (e : exn) : bool :=
  match exn_cls e with
  | CancelledError | KeyboardInterrupt | SystemExit | GeneratorExit => false
  | _ => true
  end.

Inductive result (A : Type) :=
| Ok (a : A)
| Raise (e : exn).
Arguments Ok {A} a.
Arguments Raise {A} e.

(* ================================================================== *)
(** ** Resources and the state container *)

(** What [create_async_engine(url, echo=..., pool_pre_ping=...)]
    returns. *)
Record Engine := mkEngine {
  engine_url : option string;
  engine_echo : bool;
  engine_pool_pre_ping : bool
}.

(** What [async_sessionmaker(engine, class_=AsyncSession,
    expire_on_commit=...)] returns. *)
Record SessionMaker := mkSessionMaker {
  sm_bind : option Engine;
  sm_expire_on_commit : bool
}.

(** The connection of an [engine.begin()] block. *)
Record Connection := mkConnection { conn_engine : Engine }.

(** An [AsyncSession] made by a session factory. *)
Record Session := mkSession { session_maker : SessionMaker }.

(** What [aioredis.from_url(url, decode_responses=...)] returns. *)
Record Redis := mkRedis {
  redis_url : option string;
  redis_decode_responses : bool
}.

(** Modelled from the spec: the module [src.services.state], the
    process-wide state container, is not among the sources.  The spec
    gives it three fields, the database pool, the session factory and
    the cache client; [None] is a field that was never populated. *)
Record State := mkState {
  engine : option Engine;
  async_session : option SessionMaker;
  redis_client : option Redis
}.

Definition empty_state : State :=
  {| engine := None; async_session := None; redis_client := None |}.

(** Modelled from the spec: the response model [HealthResponse] of
    [src.schemas] is not among the sources.  The spec gives the health
    payload five fields. *)
Record HealthResponse := mkHealthResponse {
  status : string;
  service : string;
  timestamp : string;
  database_connected : bool;
  redis_connected : bool
}.

(* ================================================================== *)
(** ** The trace of a run *)

(** The calls that leave the module. *)
Inductive op :=
| CreateAsyncEngine (url : option string) (echo pool_pre_ping : bool)
| AsyncSessionmaker (e : option Engine) (expire_on_commit : bool)
| EngineBegin (e : Engine)            (* entering [engine.begin()] *)
| RunSyncCreateAll (c : Connection)   (* [conn.run_sync(Base.metadata.create_all)] *)
| Commit (c : Connection)             (* leaving the block normally *)
| Rollback (c : Connection)           (* leaving the block on an exception *)
| RedisFromUrl (url : option string) (decode_responses : bool)
| EngineDispose (e : Engine)
| RedisClose (r : Redis)
| SessionOpen (f : SessionMaker)      (* [state.async_session()] and entering it *)
| ExecuteSelect1 (s : Session)        (* [session.execute(select(1))] *)
| SessionClose (s : Session).         (* leaving the session block *)

Inductive log_level := INFO | ERROR.

Inductive event :=
| Call (o : op)                 (* the call starts *)
| Return (o : op)               (* the call, awaited, has completed *)
| Raised (o : op) (e : exn)     (* the call has ended in an exception *)
| Log (l : log_level) (msg : string)
| ServeStart                    (* [yield]: the application accepts traffic *)
| ServeStop.                    (* control comes back to the generator *)

(** The globals of [src.services.state] and what has happened so far,
    oldest event first. *)
Record Sys := mkSys {
  state : State;
  trace : list event
}.

(* ================================================================== *)
(** ** A monad for Python functions

    A computation runs on the local frame [L] of its function and on
    [Sys]; it returns a value or raises. *)

Definition M (L A : Type) : Type := L * Sys -> result A * (L * Sys).

Definition ret {L A} (a : A) : M L A := fun s => (Ok a, s).

Definition bind {L A B} (m : M L A) (k : A -> M L B) : M L B :=
  fun s => match m s with
           | (Ok a, s') => k a s'
           | (Raise e, s') => (Raise e, s')
           end.

Definition raise {L A} (e : exn) : M L A := fun s => (Raise e, s).

Declare Scope py_scope.
Delimit Scope py_scope with py.
Notation "x <- m ;; k" := (bind m (fun x => k))
  (at level 100, m at next level, right associativity) : py_scope.
Notation "m ;; k" := (bind m (fun _ => k))
  (at level 100, right associativity) : py_scope.
Open Scope py_scope.

Definition emit {L} (ev : event) : M L unit :=
  fun '(l, s) => (Ok tt, (l, {| state := state s; trace := trace s ++ [ev] |})).

Definition gets {L A} (f : State -> A) : M L A :=
  fun '(l, s) => (Ok (f (state s)), (l, s)).

Definition modify {L} (f : State -> State) : M L unit :=
  fun '(l, s) => (Ok tt, (l, {| state := f (state s); trace := trace s |})).

Definition get_local {L} : M L L := fun '(l, s) => (Ok l, (l, s)).

Definition set_local {L} (l : L) : M L unit := fun '(_, s) => (Ok tt, (l, s)).

(** [try: body / except <classes> as e: handler e]; [catches] tells
    which exceptions the clause matches. *)
Definition try_except {L A} (body : M L A) (catches : exn -> bool)
    (handler : exn -> M L A) : M L A :=
  fun s => match body s with
           | (Ok a, s') => (Ok a, s')
           | (Raise e, s') => if catches e then handler e s' else (Raise e, s')
           end.

(** A bare [except:] matches every exception. *)
Definition any_exception (e : exn) : bool := true.

(** [async with mgr as x: body].  The manager is left through
    [exit_ok] when the body completes and through [exit_exn] when it
    raises; none of the managers used here suppresses the exception,
    so it is raised again afterwards.  An exception of the exit itself
    replaces it. *)
Definition async_with {L A B} (enter : M L A) (exit_ok : A -> M L unit)
    (exit_exn : A -> exn -> M L unit) (body : A -> M L B) : M L B :=
  x <- enter;;
  fun s => match body x s with
           | (Ok b, s') => (exit_ok x;; ret b) s'
           | (Raise e, s') => (exit_exn x e;; raise e) s'
           end.

(** A call that leaves the module: [outcome] is [None] when it
    returns and [Some e] when it raises [e]. *)
Definition extcall {L} (o : op) (outcome : option exn) : M L unit :=
  emit (Call o);;
  match outcome with
  | None => emit (Return o)
  | Some e => emit (Raised o e);; raise e
  end.

(** [obj.attr] where [obj] may be [None]. *)
Definition attr_of {L A} (attr : string) (obj : option A) : M L A :=
  match obj with
  | Some a => ret a
  | None =>
      raise (mkExn AttributeError
               ("'NoneType' object has no attribute '" ++ attr ++ "'"))
  end.

Definition logger_info {L} (msg : string) : M L unit := emit (Log INFO msg).
Definition logger_error {L} (msg : string) : M L unit := emit (Log ERROR msg).

(* ================================================================== *)
(** ** The clock *)

(** A [datetime] in UTC. *)
Record datetime := mkDatetime {
  year : nat; month : nat; day : nat;
  hour : nat; minute : nat; second : nat;
  microsecond : nat
}.

Definition digit (n : nat) : ascii := ascii_of_nat (48 + n mod 10).

(** [n] written with [width] decimal digits, zero-padded, for
    [n < 10 ^ width] as the fields of a [datetime] are. *)
Fixpoint zfill (width n : nat) : string :=
  match width with
  | O => EmptyString
  | S w => zfill w (n / 10) ++ String (digit n) EmptyString
  end.

(** [dt.isoformat()] for an aware [datetime] whose zone is
    [timezone.utc]: the fraction is left out when it is zero and the
    offset is always [+00:00]. *)
Definition isoformat (dt : datetime) : string :=
  zfill 4 (year dt) ++ "-" ++ zfill 2 (month dt) ++ "-" ++ zfill 2 (day dt)
  ++ "T" ++ zfill 2 (hour dt) ++ ":" ++ zfill 2 (minute dt)
  ++ ":" ++ zfill 2 (second dt)
  ++ (if Nat.eqb (microsecond dt) 0 then ""
      else "." ++ zfill 6 (microsecond dt))
  ++ "+00:00".

(* ================================================================== *)
(** ** The collaborators *)

(** How the calls of one run of [lifespan] end. *)
Record World := mkWorld {
  w_create_engine : option exn;
  w_sessionmaker : option exn;
  w_begin : option exn;
  w_create_all : option exn;
  w_commit : option exn;
  w_rollback : option exn;
  w_from_url : option exn;
  w_serve : option exn;      (* an exception thrown into the generator at [yield] *)
  w_dispose : option exn;
  w_redis_close : option exn
}.

(** How the calls of one request to [/health] end, and what the clock
    shows. *)
Record Backend := mkBackend {
  b_session_open : option exn;
  b_execute : option exn;
  b_session_close : option exn;
  b_now : datetime           (* [datetime.now(timezone.utc)] *)
}.

Section Lifespan.

Variable cfg : Config.
Variable w : World.
Context {L : Type}.

Definition create_async_engine (url : option string) (echo pool_pre_ping : bool)
  : M L Engine :=
  extcall (CreateAsyncEngine url echo pool_pre_ping) (w_create_engine w);;
  ret (mkEngine url echo pool_pre_ping).

Definition async_sessionmaker (e : option Engine) (expire_on_commit : bool)
  : M L SessionMaker :=
  extcall (AsyncSessionmaker e expire_on_commit) (w_sessionmaker w);;
  ret (mkSessionMaker e expire_on_commit).

Definition engine_begin (e : Engine) : M L Connection :=
  extcall (EngineBegin e) (w_begin w);;
  ret (mkConnection e).

Definition run_sync_create_all (c : Connection) : M L unit :=
  extcall (RunSyncCreateAll c) (w_create_all w).

Definition begin_exit_ok (c : Connection) : M L unit :=
  extcall (Commit c) (w_commit w).

Definition begin_exit_exn (c : Connection) (e : exn) : M L unit :=
  extcall (Rollback c) (w_rollback w).

Definition redis_from_url (url : option string) (decode_responses : bool)
  : M L Redis :=
  extcall (RedisFromUrl url decode_responses) (w_from_url w);;
  ret (mkRedis url decode_responses).

Definition engine_dispose (e : Engine) : M L unit :=
  extcall (EngineDispose e) (w_dispose w).

Definition redis_close (r : Redis) : M L unit :=
  extcall (RedisClose r) (w_redis_close w).

Definition set_engine (e : Engine) : M L unit :=
  modify (fun s => {| engine := Some e;
                      async_session := async_session s;
                      redis_client := redis_client s |}).

Definition set_async_session (f : SessionMaker) : M L unit :=
  modify (fun s => {| engine := engine s;
                      async_session := Some f;
                      redis_client := redis_client s |}).

Definition set_redis_client (r : Redis) : M L unit :=
  modify (fun s => {| engine := engine s;
                      async_session := async_session s;
                      redis_client := Some r |}).

(** Truth value of a reference to an object that defines neither
    [__bool__] nor [__len__]: false only for [None]. *)
Definition truthy {A} (o : option A) : bool :=
  match o with Some _ => true | None => false end.

(** Lines 41-50: the body of the [try]. *)
Definition acquire : M L unit :=
  e <- create_async_engine (DATABASE_URL cfg) false true;;
  set_engine e;;
  bound <- gets engine;;
  f <- async_sessionmaker bound false;;
  set_async_session f;;
  pool <- gets engine;;
  pool <- attr_of "begin" pool;;
  async_with (engine_begin pool) begin_exit_ok begin_exit_exn
    (fun conn => run_sync_create_all conn);;
  r <- redis_from_url (REDIS_URL cfg) true;;
  set_redis_client r;;
  logger_info "Template Service started successfully".

(** Lines 39-54: the [try] with its [except Exception as e] clause,
    which logs and raises the exception again. *)
Definition startup : M L unit :=
  try_except acquire is_Exception
    (fun e =>
       logger_error ("Failed to start Template Service: " ++ exn_msg e);;
       raise e).

(** Line 56.  While the generator is suspended the application serves
    requests; an exception of the enclosing [async with] block is
    thrown in at the [yield]. *)
Definition yield : M L unit :=
  emit ServeStart;;
  emit ServeStop;;
  match w_serve w with
  | None => ret tt
  | Some e => raise e
  end.

(** Lines 58-62. *)
Definition shutdown : M L unit :=
  pool <- gets engine;;
  (if truthy pool
   then (pool <- attr_of "dispose" pool;; engine_dispose pool)
   else ret tt);;
  client <- gets redis_client;;
  (if truthy client
   then (client <- attr_of "close" client;; redis_close client)
   else ret tt);;
  logger_info "Template Service shut down".

(** Lines 37-62. *)
Definition lifespan : M L unit :=
  startup;;
  yield;;
  shutdown.

End Lifespan.

Section Health.

Variable b : Backend.

(** [state.async_session()] followed by [__aenter__]; calling [None]
    is a [TypeError]. *)
Definition session_open (factory : option SessionMaker) : M bool Session :=
  match factory with
  | None => raise (mkExn TypeError "'NoneType' object is not callable")
  | Some f =>
      extcall (SessionOpen f) (b_session_open b);;
      ret (mkSession f)
  end.

Definition session_execute_select_1 (s : Session) : M bool unit :=
  extcall (ExecuteSelect1 s) (b_execute b).

Definition session_close (s : Session) : M bool unit :=
  extcall (SessionClose s) (b_session_close b).

Definition is_not_None {A} (o : option A) : bool :=
  match o with Some _ => true | None => false end.

(** Lines 84-100.  The local frame holds [db_connected]. *)
Definition health_check : M bool HealthResponse :=
  set_local false;;
  try_except
    (factory <- gets async_session;;
     async_with (session_open factory) session_close
       (fun s _ => session_close s)
       (fun session =>
          session_execute_select_1 session;;
          set_local true))
    any_exception
    (fun _ => ret tt);;
  db_connected <- get_local;;
  client <- gets redis_client;;
  ret {| status := "healthy";
         service := "template-service";
         timestamp := isoformat (b_now b);
         database_connected := db_connected;
         redis_connected := is_not_None client |}.

End Health.

(** Running a function from a state of the process, with an empty
    trace. *)
Definition run {L A} (m : M L A) (l : L) (st : State) : result A * (L * Sys) :=
  m (l, {| state := st; trace := [] |}).

Definition outcome {L A} (r : result A * (L * Sys)) : result A := fst r.
Definition final_state {L A} (r : result A * (L * Sys)) : State :=
  state (snd (snd r)).
Definition events {L A} (r : result A * (L * Sys)) : list event :=
  trace (snd (snd r)).

(* ================================================================== *)
(** ** Reading a trace *)

Definition op_eq_dec (a b : op) : {a = b} + {a <> b}.
Proof. repeat decide equality. Defined.

Definition op_eqb (a b : op) : bool :=
  if op_eq_dec a b then true else false.

(** The calls of a trace, in the order in which they start. *)
Fixpoint calls (t : list event) : list op :=
  match t with
  | [] => []
  | Call o :: t' => o :: calls t'
  | _ :: t' => calls t'
  end.

Definition is_release (o : op) : bool :=
  match o with
  | EngineDispose _ | RedisClose _ => true
  | _ => false
  end.

(** The calls that go to the cache. *)
Definition is_cache_call (o : op) : bool :=
  match o with
  | RedisFromUrl _ _ | RedisClose _ => true
  | _ => false
  end.

(** The release calls of a trace. *)
Definition releases (t : list event) : list op := filter is_release (calls t).

(** Every call of the trace has ended, by returning or by raising,
    before the next event: nothing starts while a call is running. *)
Fixpoint awaited (t : list event) : bool :=
  match t with
  | [] => true
  | Call o :: Return o' :: t' => op_eqb o o' && awaited t'
  | Call o :: Raised o' _ :: t' => op_eqb o o' && awaited t'
  | Call _ :: _ => false
  | Return _ :: _ => false
  | Raised _ _ :: _ => false
  | _ :: t' => awaited t'
  end.

(** [a] occurs in the trace and [b] occurs later. *)
Fixpoint before (a b : event) (t : list event) : Prop :=
  match t with
  | [] => False
  | x :: t' => (x = a /\ In b t') \/ before a b t'
  end.

(** The events that follow the first [ServeStop]. *)
Fixpoint after_serving (t : list event) : list event :=
  match t with
  | [] => []
  | ServeStop :: t' => t'
  | _ :: t' => after_serving t'
  end.

(** The trace shows the application accepting traffic. *)
Definition served (t : list event) : bool :=
  existsb (fun ev => match ev with ServeStart => true | _ => false end) t.

(** The error entries of the log. *)
Fixpoint errors_logged (t : list event) : list string :=
  match t with
  | [] => []
  | Log ERROR msg :: t' => msg :: errors_logged t'
  | _ :: t' => errors_logged t'
  end.

(** The info entries of the log. *)
Fixpoint infos_logged (t : list event) : list string :=
  match t with
  | [] => []
  | Log INFO msg :: t' => msg :: infos_logged t'
  | _ :: t' => infos_logged t'
  end.

(** The calls that [health_check] makes on a session. *)
Definition is_session_call (o : op) : bool :=
  match o with
  | SessionOpen _ | ExecuteSelect1 _ | SessionClose _ => true
  | _ => false
  end.

(* ================================================================== *)
(** ** Sample runs *)

(** The environment of the example in the spec. *)
Definition sample_config : Config :=
  {| DATABASE_URL := Some "postgresql+asyncpg://u:p@host/db";
     REDIS_URL := Some "redis://host:6379" |}.

Definition sample_pool : Engine :=
  mkEngine (DATABASE_URL sample_config) false true.

Definition sample_cache : Redis := mkRedis (REDIS_URL sample_config) true.

(** Every call returns. *)
Definition all_fine : World :=
  {| w_create_engine := None; w_sessionmaker := None; w_begin := None;
     w_create_all := None; w_commit := None; w_rollback := None;
     w_from_url := None; w_serve := None; w_dispose := None;
     w_redis_close := None |}.

Definition connection_refused : exn :=
  mkExn RedisConnectionError "Error 111 connecting to host:6379. Connection refused.".

(** The database is there and the cache is not. *)
Definition cache_down : World :=
  {| w_create_engine := None; w_sessionmaker := None; w_begin := None;
     w_create_all := None; w_commit := None; w_rollback := None;
     w_from_url := Some connection_refused; w_serve := None;
     w_dispose := None; w_redis_close := None |}.

Definition sample_time : datetime :=
  {| year := 2025; month := 1; day := 2;
     hour := 3; minute := 4; second := 5; microsecond := 6 |}.

Definition backend_up : Backend :=
  {| b_session_open := None; b_execute := None; b_session_close := None;
     b_now := sample_time |}.

Definition backend_down : Backend :=
  {| b_session_open := None;
     b_execute := Some (mkExn OperationalError "connection was closed");
     b_session_close := None;
     b_now := sample_time |}.

(** The state container after a startup that went through. *)
Definition started_state : State :=
  {| engine := Some sample_pool;
     async_session := Some (mkSessionMaker (Some sample_pool) false);
     redis_client := Some sample_cache |}.

Definition table_locked : exn :=
  mkExn OperationalError "could not obtain lock on relation".

Definition connection_lost : exn :=
  mkExn OperationalError "connection was closed in the middle of operation".

(** Create-all fails and so does the rollback that follows. *)
Definition schema_and_rollback_fail : World :=
  {| w_create_engine := None; w_sessionmaker := None; w_begin := None;
     w_create_all := Some table_locked; w_commit := None;
     w_rollback := Some connection_lost;
     w_from_url := None; w_serve := None; w_dispose := None;
     w_redis_close := None |}.

(** The serving task is cancelled. *)
Definition serving_cancelled : World :=
  {| w_create_engine := None; w_sessionmaker := None; w_begin := None;
     w_create_all := None; w_commit := None; w_rollback := None;
     w_from_url := None; w_serve := Some (mkExn CancelledError "");
     w_dispose := None; w_redis_close := None |}.

(** The disposal of the engine fails. *)
Definition dispose_fails : World :=
  {| w_create_engine := None; w_sessionmaker := None; w_begin := None;
     w_create_all := None; w_commit := None; w_rollback := None;
     w_from_url := None; w_serve := None;
     w_dispose := Some connection_lost; w_redis_close := None |}.

(** A process environment with the generic scheme. *)
Definition sample_env (k : string) : option string :=
  if String.eqb k "DATABASE_URL" then Some "postgresql://u:p@host/db"
  else if String.eqb k "REDIS_URL" then Some "redis://host:6379"
  else None.

(* ================================================================== *)
(** * Properties *)

(** ** Strings *)

Lemma prefix_split (p s : string) :
  String.prefix p s = true -> s = p ++ PyStr.drop (String.length p) s.
Proof.
  revert s; induction p as [|c p IH]; intros s H.
  - reflexivity.
  - destruct s as [|d s]; simpl in H; [discriminate|].
    destruct (ascii_dec c d) as [->|]; [|discriminate].
    simpl. f_equal. now apply IH.
Qed.

Lemma prefix_empty (s : string) : String.prefix "" s = true.
Proof. destruct s; reflexivity. Qed.

Lemma prefix_append (p r : string) : String.prefix p (p ++ r) = true.
Proof.
  induction p as [|c p IH]; simpl.
  - apply prefix_empty.
  - destruct (ascii_dec c c); [exact IH|congruence].
Qed.

Lemma drop_append (p r : string) : PyStr.drop (String.length p) (p ++ r) = r.
Proof. induction p; simpl; auto. Qed.

Lemma replace1_unfold (old new s : string) :
  PyStr.replace1 old new s =
  if String.prefix old s then new ++ PyStr.drop (String.length old) s
  else match s with
       | EmptyString => EmptyString
       | String c s' => String c (PyStr.replace1 old new s')
       end.
Proof. destruct s; reflexivity. Qed.

Lemma replace1_at_start (old new r : string) :
  PyStr.replace1 old new (old ++ r) = new ++ r.
Proof.
  rewrite replace1_unfold, prefix_append, drop_append. reflexivity.
Qed.

Lemma occurrences_unfold (p s : string) :
  PyStr.occurrences p s =
  (if String.prefix p s then 1 else 0) +
  match s with
  | EmptyString => 0
  | String _ s' => PyStr.occurrences p s'
  end.
Proof. destruct s; reflexivity. Qed.

Lemma replace1_absent (old new s : string) :
  PyStr.occurrences old s = 0 -> PyStr.replace1 old new s = s.
Proof.
  induction s as [|c s IH]; rewrite replace1_unfold, occurrences_unfold.
  - destruct (String.prefix old ""); [discriminate|reflexivity].
  - destruct (String.prefix old (String c s)); [discriminate|].
    intros H. now rewrite IH.
Qed.

Lemma occurrences_generic_scheme (rest : string) :
  PyStr.occurrences generic_scheme (generic_scheme ++ rest)
  = S (PyStr.occurrences generic_scheme rest).
Proof.
  unfold generic_scheme. cbn.
  destruct rest; reflexivity.
Qed.

Lemma occurrences_asyncpg_scheme (rest : string) :
  PyStr.occurrences generic_scheme (asyncpg_scheme ++ rest)
  = PyStr.occurrences generic_scheme rest.
Proof. reflexivity. Qed.

Lemma asyncpg_not_generic (rest : string) :
  PyStr.startswith (asyncpg_scheme ++ rest) generic_scheme = false.
Proof. reflexivity. Qed.

(** ** Normalisation of [DATABASE_URL] *)

Lemma replace_generic_scheme (s : string) :
  PyStr.startswith s generic_scheme = true ->
  normalize_database_url (Some s)
  = Some (asyncpg_scheme ++ PyStr.drop (String.length generic_scheme) s).
Proof.
  intros H. pose proof (prefix_split _ _ H) as E.
  unfold normalize_database_url. rewrite H.
  replace (PyStr.truthy s) with true by (rewrite E; reflexivity).
  simpl andb. cbv iota. f_equal.
  rewrite E at 1. apply replace1_at_start.
Qed.

(** C3.  A [DATABASE_URL] that begins with [postgresql://] is
    normalised to [postgresql+asyncpg://] followed by the rest of the
    string, character for character; the rest is kept even where the
    scheme occurs in it again, so the result has exactly one occurrence
    of the generic scheme less than the input. *)
Theorem normalize_rewrites_generic_scheme (s : string) :
  PyStr.startswith s generic_scheme = true ->
  let rest := PyStr.drop (String.length generic_scheme) s in
  s = generic_scheme ++ rest /\
  normalize_database_url (Some s) = Some (asyncpg_scheme ++ rest) /\
  PyStr.startswith (asyncpg_scheme ++ rest) asyncpg_scheme = true /\
  S (PyStr.occurrences generic_scheme (asyncpg_scheme ++ rest))
  = PyStr.occurrences generic_scheme s.
Proof.
  intros H rest.
  assert (E : s = generic_scheme ++ rest) by (apply prefix_split; exact H).
  pose proof (replace_generic_scheme s H) as N. fold rest in N.
  clearbody rest.
  split; [exact E|].
  split.
  - exact N.
  - split.
    + unfold PyStr.startswith. apply prefix_append.
    + rewrite occurrences_asyncpg_scheme, E.
      now rewrite occurrences_generic_scheme.
Qed.

Lemma normalize_rewrites_generic_scheme_witness :
  PyStr.startswith "postgresql://u:p@host/db?next=postgresql://x" generic_scheme
  = true /\
  normalize_database_url (Some "postgresql://u:p@host/db?next=postgresql://x")
  = Some "postgresql+asyncpg://u:p@host/db?next=postgresql://x".
Proof.
  split; [reflexivity|].
  exact (proj1 (proj2 (normalize_rewrites_generic_scheme
                         "postgresql://u:p@host/db?next=postgresql://x"
                         eq_refl))).
Defined.

(** The example of the spec: the configuration read from an
    environment with [DATABASE_URL=postgresql://u:p@host/db]. *)
Example load_config_example :
  load_config (fun k => if String.eqb k "DATABASE_URL"
                        then Some "postgresql://u:p@host/db"
                        else if String.eqb k "REDIS_URL"
                             then Some "redis://host:6379" else None)
  = {| DATABASE_URL := Some "postgresql+asyncpg://u:p@host/db";
       REDIS_URL := Some "redis://host:6379" |}.
Proof. reflexivity. Qed.

Lemma normalize_idempotent (u : option string) :
  normalize_database_url (normalize_database_url u) = normalize_database_url u.
Proof.
  destruct u as [s|]; [|reflexivity].
  destruct (PyStr.truthy s && PyStr.startswith s generic_scheme) eqn:E.
  - apply andb_prop in E. destruct E as [_ E].
    rewrite (replace_generic_scheme s E). reflexivity.
  - assert (N : normalize_database_url (Some s) = Some s)
      by (unfold normalize_database_url; now rewrite E).
    now rewrite !N.
Qed.

(** C4.  A [DATABASE_URL] that does not begin with [postgresql://],
    an already normalised [postgresql+asyncpg://] URL among them, is
    left as it is, and so is an unset one; normalising twice is the
    same as normalising once. *)
Theorem normalize_noop_and_idempotent :
  (forall s, PyStr.startswith s generic_scheme = false ->
             normalize_database_url (Some s) = Some s) /\
  (forall rest, normalize_database_url (Some (asyncpg_scheme ++ rest))
                = Some (asyncpg_scheme ++ rest)) /\
  normalize_database_url None = None /\
  (forall u, normalize_database_url (normalize_database_url u)
             = normalize_database_url u).
Proof.
  split; [|split; [|split]].
  - intros s H. unfold normalize_database_url.
    rewrite H, andb_false_r. reflexivity.
  - reflexivity.
  - reflexivity.
  - exact normalize_idempotent.
Qed.

Lemma normalize_noop_and_idempotent_witness :
  PyStr.startswith "mysql://u:p@host/db" generic_scheme = false /\
  normalize_database_url (Some "mysql://u:p@host/db")
  = Some "mysql://u:p@host/db".
Proof.
  split; [reflexivity|].
  exact (proj1 normalize_noop_and_idempotent "mysql://u:p@host/db" eq_refl).
Defined.

(** ** Traces *)

Lemma op_eqb_refl (o : op) : op_eqb o o = true.
Proof. unfold op_eqb. destruct (op_eq_dec o o); congruence. Qed.

Lemma awaited_return (o : op) (t : list event) :
  awaited t = true -> awaited (Call o :: Return o :: t) = true.
Proof. intros H. cbn [awaited]. now rewrite op_eqb_refl, H. Qed.

Lemma awaited_raised (o : op) (e : exn) (t : list event) :
  awaited t = true -> awaited (Call o :: Raised o e :: t) = true.
Proof. intros H. cbn [awaited]. now rewrite op_eqb_refl, H. Qed.

Lemma awaited_log (lv : log_level) (msg : string) (t : list event) :
  awaited t = true -> awaited (Log lv msg :: t) = true.
Proof. intros H. exact H. Qed.



Create HintDb trace discriminated.
#[local] Hint Resolve awaited_return awaited_raised awaited_log : trace.

(** Unfolds a run down to the outcomes of the collaborators. *)
Ltac py_unfold :=
  unfold run, outcome, final_state, events, lifespan, startup, acquire,
    yield, shutdown, health_check, create_async_engine, async_sessionmaker,
    engine_begin, run_sync_create_all, begin_exit_ok, begin_exit_exn,
    redis_from_url, engine_dispose, redis_close, set_engine,
    set_async_session, set_redis_client, session_open,
    session_execute_select_1, session_close, logger_info, logger_error,
    async_with, try_except, any_exception, extcall, attr_of, bind, ret,
    raise, emit, gets, modify, get_local, set_local.

(** Splits on the next outcome that the goal depends on. *)
Ltac next_outcome :=
  match goal with
  | |- context [match ?o with Some _ => _ | None => _ end] =>
      is_var o; destruct o
  | |- context [if is_Exception ?e then _ else _] =>
      destruct (is_Exception e) eqn:?
  end.

Ltac in_trace := cbn [In]; solve [repeat first [left; reflexivity | right]].

Ltac is_before :=
  cbn [before];
  solve [repeat first [left; split; [reflexivity | in_trace] | right]].

Ltac not_in_trace H := cbn [In] in H; intuition discriminate.

(** ** Startup *)

(** C9.  The calls of startup are made one after the other, each one
    ended before the next event, in the order: engine construction,
    session factory, [engine.begin()], create-all on the connection of
    that engine, commit, Redis connection; a startup that returns has
    made exactly these six calls.  A run that fails stops
    after a beginning of this sequence, with the rollback of the
    transaction when create-all failed.  Create-all starts only after
    the engine has been constructed and its transaction opened, and the
    Redis connection only after create-all has returned and the
    transaction is committed. *)
Theorem startup_is_sequential {L : Type} (cfg : Config) (w : World) (l : L)
    (st : State) :
  let pool := mkEngine (DATABASE_URL cfg) false true in
  let conn := mkConnection pool in
  let create_pool := CreateAsyncEngine (DATABASE_URL cfg) false true in
  let make_sessions := AsyncSessionmaker (Some pool) false in
  let create_all := RunSyncCreateAll conn in
  let connect_cache := RedisFromUrl (REDIS_URL cfg) true in
  let t := events (run (startup cfg w) l st) in
  awaited t = true /\
  ((exists n, calls t = firstn n [create_pool; make_sessions; EngineBegin pool;
                                  create_all; Commit conn; connect_cache]) \/
   calls t = [create_pool; make_sessions; EngineBegin pool;
              create_all; Rollback conn]) /\
  (In (Call create_all) t ->
     before (Return create_pool) (Call (EngineBegin pool)) t /\
     before (Return (EngineBegin pool)) (Call create_all) t) /\
  (In (Call connect_cache) t ->
     before (Return create_all) (Call (Commit conn)) t /\
     before (Return (Commit conn)) (Call connect_cache) t) /\
  (outcome (run (startup cfg w) l st) = Ok tt ->
     calls t = [create_pool; make_sessions; EngineBegin pool;
                create_all; Commit conn; connect_cache]).
Proof.
  destruct w as [ce sm bg ca cm rb fu sv dp rc].
  cbv zeta.
  py_unfold. cbn -[awaited calls before In firstn].
  repeat (next_outcome; cbn -[awaited calls before In firstn]).
  all: split; [auto 10 with trace|].
  all: split;
    [ first [ right; reflexivity
            | left; exists 6; reflexivity | left; exists 5; reflexivity
            | left; exists 4; reflexivity | left; exists 3; reflexivity
            | left; exists 2; reflexivity | left; exists 1; reflexivity ]
    | ].
  all: split; [intros H; first [ split; is_before | not_in_trace H ]|].
  all: split; [intros H; first [ split; is_before | not_in_trace H ]|].
  all: intros H; first [discriminate H | reflexivity].
Qed.

(** ** Failure of startup *)

Section StartupFailure.

Variable cfg : Config.
Variable w : World.
Context {L : Type}.
Variables (l : L) (st : State).


Lemma startup_after_acquire_returns :
  outcome (run (acquire cfg w) l st) = Ok tt ->
  run (startup cfg w) l st = run (acquire cfg w) l st.
Proof.
  unfold run, startup, try_except, outcome.
  destruct (acquire cfg w (l, _)) as [[a|e'] [l' s']]; cbn [fst];
    intros H; [reflexivity|discriminate].
Qed.



End StartupFailure.





(** ** The lifecycle *)

(** A startup that returns has populated the three fields of the
    state container. *)
Lemma startup_populates_state {L : Type} (cfg : Config) (w : World) (l : L)
    (st : State) :
  outcome (run (startup cfg w) l st) = Ok tt ->
  final_state (run (startup cfg w) l st)
  = {| engine := Some (mkEngine (DATABASE_URL cfg) false true);
       async_session :=
         Some (mkSessionMaker (Some (mkEngine (DATABASE_URL cfg) false true))
                 false);
       redis_client := Some (mkRedis (REDIS_URL cfg) true) |}.
Proof.
  destruct w as [ce sm bg ca cm rb fu sv dp rc].
  py_unfold. cbn. repeat (next_outcome; cbn).
  all: first [discriminate | reflexivity].
Qed.

(** C2, as the code has it.  In a run whose startup returns and whose
    serving phase ends without an exception, the application has
    accepted traffic and the release calls are exactly these, all of
    them after it has stopped: one disposal of the engine and then,
    unless the disposal raised, one close of the Redis client. *)
Theorem lifespan_releases_once_after_serving {L : Type} (cfg : Config)
    (w : World) (l : L) (st : State) :
  outcome (run (startup cfg w) l st) = Ok tt ->
  w_serve w = None ->
  let t := events (run (lifespan cfg w) l st) in
  served t = true /\
  releases t
  = EngineDispose (mkEngine (DATABASE_URL cfg) false true)
    :: match w_dispose w with
       | None => [RedisClose (mkRedis (REDIS_URL cfg) true)]
       | Some _ => []
       end /\
  releases (after_serving t) = releases t.
Proof.
  destruct w as [ce sm bg ca cm rb fu sv dp rc]. cbn [w_serve w_dispose].
  intros H ->. revert H.
  py_unfold. cbn. repeat (next_outcome; cbn).
  all: first [discriminate | intros _; repeat split].
Qed.

Lemma lifespan_releases_once_after_serving_witness :
  outcome (run (startup sample_config all_fine) tt empty_state) = Ok tt /\
  w_serve all_fine = None /\
  releases (events (run (lifespan sample_config all_fine) tt empty_state))
  = [EngineDispose sample_pool; RedisClose sample_cache].
Proof.
  split; [reflexivity|]. split; [reflexivity|].
  exact (proj1 (proj2 (lifespan_releases_once_after_serving sample_config
                         all_fine tt empty_state eq_refl eq_refl))).
Defined.

(** A startup that acquired the engine and then failed to connect to
    the cache: the lifespan ends in the exception, the engine is in
    the state container, and nothing is released. *)
Lemma lifespan_partial_startup_releases_nothing :
  outcome (run (lifespan sample_config cache_down) tt empty_state)
  = Raise connection_refused /\
  engine (final_state (run (lifespan sample_config cache_down) tt empty_state))
  = Some sample_pool /\
  served (events (run (lifespan sample_config cache_down) tt empty_state))
  = false /\
  releases (events (run (lifespan sample_config cache_down) tt empty_state))
  = [].
Proof. repeat split. Qed.

(** C8.  At shutdown a resource whose reference is [None] is skipped
    without a call and without an exception, and the other one is
    released: with no engine the only call is the close of the Redis
    client, with no Redis client the only call is the disposal of the
    engine, and the result is that of this one call. *)
Theorem shutdown_releases_independently {L : Type} (w : World) (l : L)
    (st : State) :
  let r := run (shutdown w) l st in
  (forall c, engine st = None -> redis_client st = Some c ->
     calls (events r) = [RedisClose c] /\
     outcome r = match w_redis_close w with
                 | None => Ok tt
                 | Some e => Raise e
                 end) /\
  (forall p, engine st = Some p -> redis_client st = None ->
     calls (events r) = [EngineDispose p] /\
     outcome r = match w_dispose w with
                 | None => Ok tt
                 | Some e => Raise e
                 end) /\
  (engine st = None -> redis_client st = None ->
     calls (events r) = [] /\ outcome r = Ok tt).
Proof.
  destruct w as [ce sm bg ca cm rb fu sv dp rc].
  destruct st as [pool factory client]. cbn [engine redis_client].
  repeat split; intros; subst; py_unfold; cbn;
    try next_outcome; reflexivity.
Qed.

Lemma shutdown_releases_independently_witness :
  engine (mkState (Some sample_pool) None None) = Some sample_pool /\
  redis_client (mkState (Some sample_pool) None None) = None /\
  calls (events (run (shutdown all_fine) tt
                   (mkState (Some sample_pool) None None)))
  = [EngineDispose sample_pool] /\
  outcome (run (shutdown all_fine) tt (mkState (Some sample_pool) None None))
  = Ok tt.
Proof.
  split; [reflexivity|]. split; [reflexivity|].
  exact (proj1 (proj2 (shutdown_releases_independently all_fine tt
                         (mkState (Some sample_pool) None None)))
           sample_pool eq_refl eq_refl).
Defined.

(** ** The health endpoint *)

Section HealthCheck.

Variable b : Backend.
Variable l : bool.
Variable st : State.

(** C1.  [health_check] returns a response whatever the backend does:
    an exception of the session factory, of the query or of the close
    of the session, of whatever class, is caught.  [database_connected]
    is true exactly when there is a session factory, the session opened
    and the query returned; so it is false whenever opening the session
    or the query raised. *)
Theorem health_check_never_raises :
  exists r : HealthResponse,
    outcome (run (health_check b) l st) = Ok r /\
    (b_session_open b <> None -> database_connected r = false) /\
    (b_execute b <> None -> database_connected r = false) /\
    (database_connected r = true <->
     async_session st <> None /\ b_session_open b = None /\
     b_execute b = None).
Proof.
  destruct b as [so ex sc now]. destruct st as [pool [factory|] client].
  all: py_unfold; cbn; repeat (next_outcome; cbn).
  all: eexists; split; [reflexivity|]; cbn.
  all: repeat split; try congruence; intuition congruence.
Qed.

(** C10.  With no session factory in the state container the call of
    [None] raises a [TypeError], no call reaches the backend, and the
    bare [except:] turns it into [database_connected = false]. *)
Theorem health_check_without_session_factory :
  async_session st = None ->
  outcome (session_open b None (l, {| state := st; trace := [] |}))
  = Raise (mkExn TypeError "'NoneType' object is not callable") /\
  exists r : HealthResponse,
    outcome (run (health_check b) l st) = Ok r /\
    database_connected r = false /\
    events (run (health_check b) l st) = [].
Proof.
  destruct st as [pool factory client]. cbn [async_session]. intros ->.
  split; [reflexivity|].
  eexists. split; [reflexivity|]. split; reflexivity.
Qed.

(** C6.  [redis_connected] is true exactly when the state container
    holds a Redis client.  The endpoint makes no call to the cache, and
    the field is the same whatever the backend does. *)
Theorem health_redis_connected_is_presence :
  exists r : HealthResponse,
    outcome (run (health_check b) l st) = Ok r /\
    (redis_connected r = true <-> redis_client st <> None) /\
    existsb is_cache_call (calls (events (run (health_check b) l st)))
    = false /\
    (forall (b' : Backend) (l' : bool),
       exists r' : HealthResponse,
         outcome (run (health_check b') l' st) = Ok r' /\
         redis_connected r' = redis_connected r).
Proof.
  destruct b as [so ex sc now]. destruct st as [pool factory [client|]].
  all: destruct factory as [factory|].
  all: py_unfold; cbn; repeat (next_outcome; cbn).
  all: eexists; split; [reflexivity|]; cbn.
  all: split; [intuition congruence|].
  all: split; [reflexivity|].
  all: intros [so' ex' sc' now'] l'; cbn; repeat (next_outcome; cbn).
  all: eexists; split; reflexivity.
Qed.

(** C7.  Whatever the probe and the presence check give, [status] is
    ["healthy"], [service] is ["template-service"] and [timestamp] is
    the ISO-8601 text of the UTC time read from the clock. *)
Theorem health_check_constant_fields :
  exists r : HealthResponse,
    outcome (run (health_check b) l st) = Ok r /\
    status r = "healthy" /\
    service r = "template-service" /\
    timestamp r = isoformat (b_now b).
Proof.
  destruct b as [so ex sc now]. destruct st as [pool [factory|] client].
  all: py_unfold; cbn -[isoformat]; repeat (next_outcome; cbn -[isoformat]).
  all: eexists; split; [reflexivity|]; repeat split.
Qed.

End HealthCheck.

(** ** Runs on the samples *)

Lemma startup_is_sequential_witness :
  In (Call (RedisFromUrl (REDIS_URL sample_config) true))
     (events (run (startup sample_config all_fine) tt empty_state)) /\
  before (Return (RunSyncCreateAll (mkConnection sample_pool)))
         (Call (Commit (mkConnection sample_pool)))
         (events (run (startup sample_config all_fine) tt empty_state)) /\
  before (Return (Commit (mkConnection sample_pool)))
         (Call (RedisFromUrl (REDIS_URL sample_config) true))
         (events (run (startup sample_config all_fine) tt empty_state)).
Proof.
  assert (I : In (Call (RedisFromUrl (REDIS_URL sample_config) true))
                 (events (run (startup sample_config all_fine) tt empty_state)))
    by (vm_compute; tauto).
  split; [exact I|].
  exact (proj1 (proj2 (proj2 (proj2
           (startup_is_sequential sample_config all_fine tt empty_state)))) I).
Defined.

Lemma health_check_never_raises_witness :
  b_execute backend_down <> None /\
  exists r : HealthResponse,
    outcome (run (health_check backend_down) false started_state) = Ok r /\
    database_connected r = false.
Proof.
  assert (N : b_execute backend_down <> None) by discriminate.
  split; [exact N|].
  destruct (health_check_never_raises backend_down false started_state)
    as (r & O & _ & E & _).
  exists r. split; [exact O|exact (E N)].
Defined.

Lemma health_check_without_session_factory_witness :
  async_session empty_state = None /\
  exists r : HealthResponse,
    outcome (run (health_check backend_up) false empty_state) = Ok r /\
    database_connected r = false.
Proof.
  split; [reflexivity|].
  destruct (health_check_without_session_factory backend_up false empty_state
              eq_refl) as (_ & r & O & D & _).
  exists r. split; [exact O|exact D].
Defined.

Lemma health_redis_connected_is_presence_witness :
  redis_client started_state <> None /\
  exists r : HealthResponse,
    outcome (run (health_check backend_down) false started_state) = Ok r /\
    redis_connected r = true.
Proof.
  assert (N : redis_client started_state <> None) by discriminate.
  split; [exact N|].
  destruct (health_redis_connected_is_presence backend_down false started_state)
    as (r & O & E & _).
  exists r. split; [exact O|exact (proj2 E N)].
Defined.

(** The response of the example in the spec. *)
Example health_check_example :
  outcome (run (health_check backend_up) false started_state)
  = Ok {| status := "healthy";
          service := "template-service";
          timestamp := "2025-01-02T03:04:05.000006+00:00";
          database_connected := true;
          redis_connected := true |}.
Proof. reflexivity. Qed.

(** After a startup that returned, the endpoint reports the cache
    client as present. *)
Lemma health_after_startup {L : Type} (cfg : Config) (w : World) (l0 : L)
    (st : State) (b : Backend) (l : bool) :
  outcome (run (startup cfg w) l0 st) = Ok tt ->
  exists r : HealthResponse,
    outcome (run (health_check b) l
               (final_state (run (startup cfg w) l0 st))) = Ok r /\
    redis_connected r = true.
Proof.
  intros H. rewrite (startup_populates_state cfg w l0 st H).
  destruct b as [so ex sc now].
  py_unfold; cbn; repeat (next_outcome; cbn).
  all: eexists; split; reflexivity.
Qed.

(** A whole second is written without a fraction. *)
Example isoformat_whole_second :
  isoformat {| year := 2024; month := 12; day := 31;
               hour := 23; minute := 59; second := 0; microsecond := 0 |}
  = "2024-12-31T23:59:00+00:00".
Proof. reflexivity. Qed.

(* ================================================================== *)
(** * Further properties *)

(** ** Configuration *)

Lemma normalize_not_generic (u : option string) (s : string) :
  normalize_database_url u = Some s ->
  PyStr.startswith s generic_scheme = false.
Proof.
  destruct u as [s0|]; [|discriminate].
  unfold normalize_database_url.
  destruct (PyStr.truthy s0) eqn:T; cbn [andb].
  - destruct (PyStr.startswith s0 generic_scheme) eqn:P.
    + pose proof (prefix_split _ _ P) as E. rewrite E, replace1_at_start.
      intros [= <-]. reflexivity.
    + now intros [= <-].
  - intros [= <-]. now destruct s0.
Qed.

(** X1.  What normalisation returns never begins with [postgresql://],
    whatever the variable held, and it is [None] exactly when the
    variable was not set. *)
Theorem normalized_url_never_generic (u : option string) :
  (normalize_database_url u = None <-> u = None) /\
  (forall s, normalize_database_url u = Some s ->
             PyStr.startswith s generic_scheme = false).
Proof.
  split; [|apply normalize_not_generic].
  destruct u as [s|]; [|tauto].
  unfold normalize_database_url.
  destruct (PyStr.truthy s && PyStr.startswith s generic_scheme);
    split; discriminate.
Qed.

Lemma normalized_url_never_generic_witness :
  normalize_database_url (Some "postgresql://postgresql://h/db")
  = Some "postgresql+asyncpg://postgresql://h/db" /\
  PyStr.startswith "postgresql+asyncpg://postgresql://h/db" generic_scheme
  = false.
Proof.
  split; [reflexivity|].
  exact (proj2 (normalized_url_never_generic
                  (Some "postgresql://postgresql://h/db"))
           "postgresql+asyncpg://postgresql://h/db" eq_refl).
Defined.

(** X2.  In a run of [lifespan] on the configuration read from the
    environment, every engine is created from the normalised
    [DATABASE_URL], so never from a URL that begins with
    [postgresql://], with [echo] off and [pool_pre_ping] on; every
    Redis client is made from [REDIS_URL] as the environment has it,
    with [decode_responses] on. *)
Theorem lifespan_uses_loaded_config {L : Type} (getenv : string -> option string)
    (w : World) (l : L) (st : State) :
  let t := events (run (lifespan (load_config getenv) w) l st) in
  (forall url echo pre_ping,
     In (Call (CreateAsyncEngine url echo pre_ping)) t ->
     url = normalize_database_url (getenv "DATABASE_URL") /\
     echo = false /\ pre_ping = true /\
     forall s, url = Some s -> PyStr.startswith s generic_scheme = false) /\
  (forall url decode_responses,
     In (Call (RedisFromUrl url decode_responses)) t ->
     url = getenv "REDIS_URL" /\ decode_responses = true).
Proof.
  destruct w as [ce sm bg ca cm rb fu sv dp rc].
  cbv zeta. unfold load_config.
  py_unfold. cbn -[normalize_database_url In].
  repeat (next_outcome; cbn -[normalize_database_url In]).
  all: split; intros; cbn [In] in *.
  all: repeat match goal with
         | H : _ \/ _ |- _ => destruct H
         | H : False |- _ => destruct H
         | H : _ = Call _ |- _ => first [discriminate H | injection H as <- <- <-
                                                        | injection H as <- <-]
         end.
  all: repeat split; eauto using normalize_not_generic.
Qed.

Lemma lifespan_uses_loaded_config_witness :
  In (Call (CreateAsyncEngine (Some "postgresql+asyncpg://u:p@host/db")
              false true))
     (events (run (lifespan (load_config sample_env) all_fine) tt empty_state))
  /\ Some "postgresql+asyncpg://u:p@host/db"
     = normalize_database_url (sample_env "DATABASE_URL").
Proof.
  assert (I : In (Call (CreateAsyncEngine
                          (Some "postgresql+asyncpg://u:p@host/db") false true))
                 (events (run (lifespan (load_config sample_env) all_fine) tt
                            empty_state)))
    by (vm_compute; tauto).
  split; [exact I|].
  exact (proj1 (proj1 (lifespan_uses_loaded_config sample_env all_fine tt
                         empty_state) _ _ _ I)).
Defined.

(** ** Startup *)

(** X3.  Startup returns exactly when the six calls of the acquisition
    sequence all return; what a rollback would do plays no part.  It
    then leaves the state container with the engine, a session factory
    bound to that engine and the Redis client, whatever the container
    held before.  The success entry is written to the log once when
    startup returns and never when it raises. *)
Theorem startup_returns_iff_all_calls_return {L : Type} (cfg : Config)
    (w : World) (l : L) (st : State) :
  let r := run (startup cfg w) l st in
  let pool := mkEngine (DATABASE_URL cfg) false true in
  (outcome r = Ok tt <->
   w_create_engine w = None /\ w_sessionmaker w = None /\ w_begin w = None /\
   w_create_all w = None /\ w_commit w = None /\ w_from_url w = None) /\
  (outcome r = Ok tt ->
   final_state r
   = {| engine := Some pool;
        async_session := Some (mkSessionMaker (Some pool) false);
        redis_client := Some (mkRedis (REDIS_URL cfg) true) |}) /\
  infos_logged (events r)
  = match outcome r with
    | Ok _ => ["Template Service started successfully"]
    | Raise _ => []
    end.
Proof.
  destruct w as [ce sm bg ca cm rb fu sv dp rc].
  cbv zeta. cbn [w_create_engine w_sessionmaker w_begin w_create_all w_commit
                 w_from_url].
  py_unfold. cbn. repeat (next_outcome; cbn).
  all: repeat split; intros; try reflexivity; try discriminate.
  all: intuition discriminate.
Qed.

Lemma startup_returns_iff_all_calls_return_witness :
  outcome (run (startup sample_config all_fine) tt
             (mkState None None (Some (mkRedis None false)))) = Ok tt /\
  final_state (run (startup sample_config all_fine) tt
                 (mkState None None (Some (mkRedis None false))))
  = started_state.
Proof.
  assert (O : outcome (run (startup sample_config all_fine) tt
                         (mkState None None (Some (mkRedis None false))))
              = Ok tt) by reflexivity.
  split; [exact O|].
  exact (proj1 (proj2 (startup_returns_iff_all_calls_return sample_config
                         all_fine tt
                         (mkState None None (Some (mkRedis None false))))) O).
Defined.

(** X4.  A startup that raises never stores a Redis client: the field
    is as it was.  When the engine construction itself raised the whole
    state container is as it was; otherwise the new engine stays in the
    container, and the session factory too when its construction
    returned. *)
Theorem failed_startup_state {L : Type} (cfg : Config) (w : World) (l : L)
    (st : State) (e : exn) :
  let r := run (startup cfg w) l st in
  let pool := mkEngine (DATABASE_URL cfg) false true in
  outcome r = Raise e ->
  redis_client (final_state r) = redis_client st /\
  match w_create_engine w with
  | Some _ => final_state r = st
  | None =>
      engine (final_state r) = Some pool /\
      async_session (final_state r)
      = match w_sessionmaker w with
        | None => Some (mkSessionMaker (Some pool) false)
        | Some _ => async_session st
        end
  end.
Proof.
  destruct w as [ce sm bg ca cm rb fu sv dp rc].
  destruct st as [pool0 factory0 client0].
  cbv zeta. cbn [w_create_engine w_sessionmaker].
  py_unfold. cbn. repeat (next_outcome; cbn).
  all: intros H; try discriminate H; repeat split.
Qed.

Lemma failed_startup_state_witness :
  outcome (run (startup sample_config cache_down) tt empty_state)
  = Raise connection_refused /\
  redis_client (final_state (run (startup sample_config cache_down) tt
                               empty_state)) = None /\
  engine (final_state (run (startup sample_config cache_down) tt empty_state))
  = Some sample_pool.
Proof.
  assert (O : outcome (run (startup sample_config cache_down) tt empty_state)
              = Raise connection_refused) by reflexivity.
  split; [exact O|].
  pose proof (failed_startup_state sample_config cache_down tt empty_state
                connection_refused O) as (R & E & _).
  split; [exact R|exact E].
Defined.

(** X5.  When create-all raises, the transaction is rolled back and
    never committed, and no connection to Redis is attempted.  Startup
    ends in the exception of create-all, unless the rollback raises
    too: then it ends in the exception of the rollback, and that one is
    what the error entry of the log carries. *)
Theorem create_all_failure_rolls_back {L : Type} (cfg : Config) (w : World)
    (l : L) (st : State) (e : exn) :
  let r := run (startup cfg w) l st in
  let pool := mkEngine (DATABASE_URL cfg) false true in
  let conn := mkConnection pool in
  let raised := match w_rollback w with None => e | Some e' => e' end in
  w_create_engine w = None -> w_sessionmaker w = None -> w_begin w = None ->
  w_create_all w = Some e ->
  calls (events r)
  = [CreateAsyncEngine (DATABASE_URL cfg) false true;
     AsyncSessionmaker (Some pool) false; EngineBegin pool;
     RunSyncCreateAll conn; Rollback conn] /\
  outcome r = Raise raised /\
  errors_logged (events r)
  = if is_Exception raised
    then ["Failed to start Template Service: " ++ exn_msg raised]
    else [].
Proof.
  destruct w as [ce sm bg ca cm rb fu sv dp rc].
  cbv zeta. cbn [w_create_engine w_sessionmaker w_begin w_create_all w_rollback].
  intros -> -> -> ->.
  py_unfold. cbn. repeat (next_outcome; cbn).
  all: repeat split.
Qed.

Lemma create_all_failure_rolls_back_witness :
  w_create_all schema_and_rollback_fail = Some table_locked /\
  outcome (run (startup sample_config schema_and_rollback_fail) tt empty_state)
  = Raise connection_lost /\
  errors_logged
    (events (run (startup sample_config schema_and_rollback_fail) tt
               empty_state))
  = ["Failed to start Template Service: connection was closed in the middle of operation"].
Proof.
  split; [reflexivity|].
  exact (proj2 (create_all_failure_rolls_back sample_config
                  schema_and_rollback_fail tt empty_state table_locked
                  eq_refl eq_refl eq_refl eq_refl)).
Defined.

(** ** The lifecycle *)

Lemma awaited_serve_start (t : list event) :
  awaited t = true -> awaited (ServeStart :: t) = true.
Proof. intros H. exact H. Qed.

Lemma awaited_serve_stop (t : list event) :
  awaited t = true -> awaited (ServeStop :: t) = true.
Proof. intros H. exact H. Qed.

Ltac all_awaited :=
  repeat first [ apply awaited_return | apply awaited_raised
               | apply awaited_log | apply awaited_serve_start
               | apply awaited_serve_stop ];
  reflexivity.

(** X6.  An exception thrown into the generator at the [yield] ends
    the lifespan at once: the code after the [yield] does not run, so
    nothing is released and the engine and the Redis client stay in the
    state container. *)
Theorem serving_exception_skips_shutdown {L : Type} (cfg : Config) (w : World)
    (l : L) (st : State) (e : exn) :
  let r := run (lifespan cfg w) l st in
  outcome (run (startup cfg w) l st) = Ok tt ->
  w_serve w = Some e ->
  outcome r = Raise e /\
  events r
  = (events (run (startup cfg w) l st) ++ [ServeStart; ServeStop])%list /\
  releases (events r) = [] /\
  engine (final_state r) = Some (mkEngine (DATABASE_URL cfg) false true) /\
  redis_client (final_state r) = Some (mkRedis (REDIS_URL cfg) true).
Proof.
  destruct w as [ce sm bg ca cm rb fu sv dp rc].
  cbv zeta. cbn [w_serve]. intros H ->. revert H.
  py_unfold. cbn. repeat (next_outcome; cbn).
  all: first [discriminate | intros _; repeat split].
Qed.

Lemma serving_exception_skips_shutdown_witness :
  outcome (run (startup sample_config serving_cancelled) tt empty_state)
  = Ok tt /\
  w_serve serving_cancelled = Some (mkExn CancelledError "") /\
  outcome (run (lifespan sample_config serving_cancelled) tt empty_state)
  = Raise (mkExn CancelledError "") /\
  releases (events (run (lifespan sample_config serving_cancelled) tt
                      empty_state)) = [].
Proof.
  split; [reflexivity|]. split; [reflexivity|].
  pose proof (serving_exception_skips_shutdown sample_config serving_cancelled
                tt empty_state (mkExn CancelledError "") eq_refl eq_refl)
    as (O & _ & R & _).
  split; [exact O|exact R].
Defined.

(** X7.  Whatever the collaborators do, the application accepts
    traffic exactly when startup returned; every call of the run has
    ended before the next event; no release is made before the
    application has stopped accepting traffic, and after that nothing
    but releases is called. *)
Theorem lifespan_phases {L : Type} (cfg : Config) (w : World) (l : L)
    (st : State) :
  let t := events (run (lifespan cfg w) l st) in
  (served t = true <-> outcome (run (startup cfg w) l st) = Ok tt) /\
  awaited t = true /\
  releases (after_serving t) = releases t /\
  calls (after_serving t) = releases t.
Proof.
  destruct w as [ce sm bg ca cm rb fu sv dp rc].
  cbv zeta.
  py_unfold. cbn -[awaited]. repeat (next_outcome; cbn -[awaited]).
  all: split; [split; intros H; first [reflexivity | discriminate H]|].
  all: split; [all_awaited|].
  all: split; reflexivity.
Qed.

Lemma lifespan_phases_witness :
  served (events (run (lifespan sample_config dispose_fails) tt empty_state))
  = true /\
  outcome (run (startup sample_config dispose_fails) tt empty_state) = Ok tt.
Proof.
  assert (S : served (events (run (lifespan sample_config dispose_fails) tt
                                empty_state)) = true) by reflexivity.
  split; [exact S|].
  exact (proj1 (proj1 (lifespan_phases sample_config dispose_fails tt
                         empty_state)) S).
Defined.

(** X8.  The lifespan returns normally exactly when startup returned,
    no exception was thrown in at the [yield] and both releases
    returned; the shutdown entry is written to the log in exactly those
    runs. *)
Theorem lifespan_returns_iff_clean {L : Type} (cfg : Config) (w : World)
    (l : L) (st : State) :
  let r := run (lifespan cfg w) l st in
  (outcome r = Ok tt <->
   outcome (run (startup cfg w) l st) = Ok tt /\ w_serve w = None /\
   w_dispose w = None /\ w_redis_close w = None) /\
  (In "Template Service shut down" (infos_logged (events r)) <->
   outcome r = Ok tt).
Proof.
  destruct w as [ce sm bg ca cm rb fu sv dp rc].
  cbv zeta. cbn [w_serve w_dispose w_redis_close].
  py_unfold. cbn. repeat (next_outcome; cbn).
  all: split; split; intros H; try discriminate H; try reflexivity.
  all: try (repeat split; reflexivity).
  all: try (destruct H as (H1 & H2 & H3 & H4); discriminate).
  all: try (repeat destruct H as [H|H]; first [discriminate H | destruct H]).
  all: auto.
Qed.

Lemma lifespan_returns_iff_clean_witness :
  outcome (run (lifespan sample_config all_fine) tt empty_state) = Ok tt /\
  In "Template Service shut down"
     (infos_logged (events (run (lifespan sample_config all_fine) tt
                              empty_state))).
Proof.
  assert (O : outcome (run (lifespan sample_config all_fine) tt empty_state)
              = Ok tt) by reflexivity.
  split; [exact O|].
  exact (proj2 (proj2 (lifespan_returns_iff_clean sample_config all_fine tt
                         empty_state)) O).
Defined.

(** ** Shutdown *)

(** X9.  At shutdown the engine is disposed first.  When the disposal
    raises, shutdown ends in that exception with the Redis client, if
    there is one, not closed; when the disposal returns and the close
    of the Redis client raises, shutdown ends in the exception of the
    close. *)
Theorem shutdown_stops_at_first_failure {L : Type} (w : World) (l : L)
    (st : State) (p : Engine) :
  let r := run (shutdown w) l st in
  engine st = Some p ->
  (forall e, w_dispose w = Some e ->
     outcome r = Raise e /\ calls (events r) = [EngineDispose p]) /\
  (forall c e, redis_client st = Some c -> w_dispose w = None ->
     w_redis_close w = Some e ->
     outcome r = Raise e /\
     calls (events r) = [EngineDispose p; RedisClose c]).
Proof.
  destruct w as [ce sm bg ca cm rb fu sv dp rc].
  destruct st as [pool factory client].
  cbv zeta. cbn [engine redis_client w_dispose w_redis_close].
  intros ->. split.
  - intros e ->. py_unfold. cbn. split; reflexivity.
  - intros c e -> -> ->. py_unfold. cbn. split; reflexivity.
Qed.

Lemma shutdown_stops_at_first_failure_witness :
  engine started_state = Some sample_pool /\
  w_dispose dispose_fails = Some connection_lost /\
  outcome (run (shutdown dispose_fails) tt started_state)
  = Raise connection_lost /\
  calls (events (run (shutdown dispose_fails) tt started_state))
  = [EngineDispose sample_pool].
Proof.
  split; [reflexivity|]. split; [reflexivity|].
  exact (proj1 (shutdown_stops_at_first_failure dispose_fails tt started_state
                  sample_pool eq_refl) connection_lost eq_refl).
Defined.

(** X10.  Shutdown leaves the state container as it was, the
    references to the released engine and client included; it writes
    its entry to the log exactly when it returns, and every call it
    makes has ended before the next event. *)
Theorem shutdown_keeps_state {L : Type} (w : World) (l : L) (st : State) :
  let r := run (shutdown w) l st in
  final_state r = st /\
  infos_logged (events r)
  = match outcome r with
    | Ok _ => ["Template Service shut down"]
    | Raise _ => []
    end /\
  awaited (events r) = true.
Proof.
  destruct w as [ce sm bg ca cm rb fu sv dp rc].
  destruct st as [[pool|] factory [client|]].
  all: cbv zeta; py_unfold; cbn -[awaited];
    repeat (next_outcome; cbn -[awaited]).
  all: split; [reflexivity|]; split; [reflexivity|all_awaited].
Qed.

(** ** The health endpoint *)

(** X11.  With a session factory in the state container, the endpoint
    opens one session from it; when the session opened, the query runs
    on that session and the session is closed once, also when the query
    raised; when it did not open, neither query nor close is called. *)
Theorem health_check_closes_session (b : Backend) (l : bool) (st : State)
    (f : SessionMaker) :
  let t := events (run (health_check b) l st) in
  async_session st = Some f ->
  calls t
  = SessionOpen f
    :: match b_session_open b with
       | None => [ExecuteSelect1 (mkSession f); SessionClose (mkSession f)]
       | Some _ => []
       end /\
  awaited t = true.
Proof.
  destruct b as [so ex sc now]. destruct st as [pool factory client].
  cbv zeta. cbn [async_session b_session_open]. intros ->.
  py_unfold. cbn -[awaited]. repeat (next_outcome; cbn -[awaited]).
  all: split; [reflexivity|all_awaited].
Qed.

Lemma health_check_closes_session_witness :
  async_session started_state = Some (mkSessionMaker (Some sample_pool) false) /\
  calls (events (run (health_check backend_down) false started_state))
  = [SessionOpen (mkSessionMaker (Some sample_pool) false);
     ExecuteSelect1 (mkSession (mkSessionMaker (Some sample_pool) false));
     SessionClose (mkSession (mkSessionMaker (Some sample_pool) false))].
Proof.
  split; [reflexivity|].
  exact (proj1 (health_check_closes_session backend_down false started_state
                  (mkSessionMaker (Some sample_pool) false) eq_refl)).
Defined.

(** X12.  The endpoint only reads: the state container is as it was,
    nothing is written to the log, and the only calls are those on its
    session. *)
Theorem health_check_read_only (b : Backend) (l : bool) (st : State) :
  let r := run (health_check b) l st in
  final_state r = st /\
  infos_logged (events r) = [] /\
  errors_logged (events r) = [] /\
  forallb is_session_call (calls (events r)) = true /\
  served (events r) = false.
Proof.
  destruct b as [so ex sc now]. destruct st as [pool [factory|] client].
  all: cbv zeta; py_unfold; cbn; repeat (next_outcome; cbn).
  all: repeat split.
Qed.
